(** * Shallow embedding of api_handler.py and data_collector.py

    [APIHandler] is a record holding the four credential fields set by
    [__init__], together with the two observable effects of its methods:
    the log written through [logger] and the trace of requests issued to the
    vendor SDKs.  The vendor SDKs themselves (stripe, requests, boto3, the
    analytics client) are not code of this repository; their behaviour is a
    parameter [Env] of every operation.  Python exceptions are the error
    channel of a small state-and-exception monad [M]: like Python, a raised
    exception keeps every effect performed before it. *)

From Stdlib Require Import String List ZArith Bool Lia.
From Stdlib Require Import DecimalString.
Import ListNotations.
Open Scope string_scope.
Set Warnings "-register-all".

(** ** Python exceptions that can reach the modelled code *)
Inductive PyExc : Type :=
| KeyError (key : string)
| NameError (name : string)
(** raised by [obj.name] when the object has no such attribute *)
| AttributeError (name : string)
| ValueError (msg : string)
(** stripe.error.SignatureVerificationError, a stripe.error.StripeError *)
| SignatureVerificationError (msg : string)
(** any other stripe.error.StripeError *)
| StripeAPIError (msg : string)
(** requests.exceptions.HTTPError, raised by raise_for_status *)
| HTTPError (status : Z)
(** requests.exceptions.ConnectionError / Timeout *)
| ConnectionError (msg : string)
(** requests.exceptions.JSONDecodeError, raised by response.json() *)
| JSONDecodeError (msg : string)
(** botocore.exceptions.ClientError (for example InvalidAccessKeyId) *)
| ClientError (code : string)
(** botocore.exceptions.NoCredentialsError / EndpointConnectionError *)
| BotocoreError (msg : string)
(** a subclass of boto3.exceptions.Boto3Error *)
| Boto3Error (msg : string)
(** google.api_core.exceptions.GoogleAPIError *)
| GoogleAPIError (msg : string).

Definition is_stripe_error (e : PyExc) : bool :=
  match e with
  | SignatureVerificationError _ | StripeAPIError _ => true
  | _ => false
  end.

Definition is_request_exception (e : PyExc) : bool :=
  match e with
  | HTTPError _ | ConnectionError _ | JSONDecodeError _ => true
  | _ => false
  end.

Definition is_boto3_error (e : PyExc) : bool :=
  match e with
  | Boto3Error _ => true
  | _ => false
  end.

Inductive Result (A : Type) : Type :=
| Ok (a : A)
| Err (e : PyExc).
Arguments Ok {A} a.
Arguments Err {A} e.

(** ** Values exchanged with the vendors *)
Inductive Json : Type :=
| JNull
| JBool (b : bool)
| JNum (z : Z)
| JStr (s : string)
| JArr (l : list Json)
| JObj (l : list (string * Json)).

(** A verified Stripe event.  [event.type] and [event.id] read the keys
    "type" and "id" of the decoded JSON object; [None] is a key the object
    lacks, where the attribute access raises AttributeError. *)
Record Event := mkEvent { ev_type : option string; ev_id : option string }.

(** The object returned by [requests.get]. *)
Record HttpResponse := mkHttpResponse {
  status_code : Z;
  json_body : Result Json   (* what response.json() returns or raises *)
}.

Record S3Bucket := mkS3Bucket { Name : string; CreationDate : string }.
Record S3ListBucketsResponse := mkS3Resp { Buckets : list S3Bucket }.

(** [response.to_dict()] of an analytics report: a dict that may lack
    either key. *)
Record GAResponse := mkGAResponse {
  ga_rows : option (list (list string));
  ga_columnHeaders : option (list string)
}.

(** The [request_body] dict of [query_report]. *)
Record GARequest := mkGARequest {
  metrics : list string;
  dimensions : list string;
  start_date : string;
  end_date : string
}.

(** Requests issued to the vendor SDKs, in the order issued. *)
Inductive Request : Type :=
| ConstructEvent (payload sig secret : string)
| HttpGet (endpoint : string) (headers : list (string * string))
| S3ListBuckets (access_key_id secret_access_key : string)
| GAQueryReport (api_key : string) (request_body : GARequest)
    (property_id : string).

Inductive LogEntry : Type :=
| LogInfo (msg : string)
| LogError (msg : string) (e : PyExc).

(** Behaviour of the vendor SDKs. *)
Record Env := mkEnv {
  construct_event : string -> string -> string -> Result Event;
  http_get : string -> list (string * string) -> Result HttpResponse;
  s3_list_buckets : string -> string -> Result S3ListBucketsResponse;
  s3_region_name : option string;
  ga_query_report : string -> GARequest -> string -> Result GAResponse
}.

(** ** The handler object *)
Record APIHandler := mkAPIHandler {
  stripe_key : string;
  aws_access_key_id : string;
  aws_secret_access_key : string;
  ganalytics_api_key : string;
  log : list LogEntry;
  sent : list Request
}.

Definition credentials (st : APIHandler) : string * string * string * string :=
  (stripe_key st, aws_access_key_id st, aws_secret_access_key st,
   ganalytics_api_key st).

(** [APIHandler.__init__] (the client objects built by [_init_clients]
    are the [Env]). *)
Definition init : APIHandler :=
  mkAPIHandler "STRIPE_API_KEY" "AWS_ACCESS_KEY_ID" "AWS_SECRET_ACCESS_KEY"
    "G_ANALYTICS_API_KEY" [] [].

(** ** The state-and-exception monad *)
Definition M (A : Type) : Type := APIHandler -> Result A * APIHandler.

Definition ret {A} (a : A) : M A := fun st => (Ok a, st).

Definition bind {A B} (c : M A) (f : A -> M B) : M B :=
  fun st =>
    match c st with
    | (Ok a, st') => f a st'
    | (Err e, st') => (Err e, st')
    end.

Notation "x <- c ;; k" := (bind c (fun x => k))
  (at level 61, c at next level, right associativity).
Notation "c ;;; k" := (bind c (fun _ => k))
  (at level 61, right associativity).

Definition raise {A} (e : PyExc) : M A := fun st => (Err e, st).

Definition lift {A} (r : Result A) : M A := fun st => (r, st).

Definition get_self : M APIHandler := fun st => (Ok st, st).

(** [try: c except ...: h]; [h] receives the exception. *)
Definition try_except {A} (c : M A) (h : PyExc -> M A) : M A :=
  fun st =>
    match c st with
    | (Err e, st') => h e st'
    | r => r
    end.

Definition logger_info (msg : string) : M unit :=
  fun st => (Ok tt, mkAPIHandler (stripe_key st) (aws_access_key_id st)
                      (aws_secret_access_key st) (ganalytics_api_key st)
                      (log st ++ [LogInfo msg]) (sent st)).

Definition logger_error (msg : string) (e : PyExc) : M unit :=
  fun st => (Ok tt, mkAPIHandler (stripe_key st) (aws_access_key_id st)
                      (aws_secret_access_key st) (ganalytics_api_key st)
                      (log st ++ [LogError msg e]) (sent st)).

Definition issue (r : Request) : M unit :=
  fun st => (Ok tt, mkAPIHandler (stripe_key st) (aws_access_key_id st)
                      (aws_secret_access_key st) (ganalytics_api_key st)
                      (log st) (sent st ++ [r])).

(** Python [d[k]] on a dict of strings. *)
Fixpoint assoc (k : string) (d : list (string * string)) : option string :=
  match d with
  | [] => None
  | (k', v) :: d' => if String.eqb k k' then Some v else assoc k d'
  end.

Definition getitem (d : list (string * string)) (k : string) : M string :=
  match assoc k d with
  | Some v => ret v
  | None => raise (KeyError k)
  end.

(** Python [obj.name] on a Stripe object. *)
Definition getattr {A} (o : option A) (name : string) : M A :=
  match o with
  | Some v => ret v
  | None => raise (AttributeError name)
  end.

Definition string_of_nat (n : nat) : string :=
  DecimalString.NilZero.string_of_uint (Nat.to_uint n).

(** ** pandas: [pd.DataFrame(rows, columns=cols).to_dict('records')]

    A cell of the frame is a string or the missing value (None/NaN) that
    pandas writes where a row is shorter than the widest row. *)
Definition Cell := option string.
Definition Record_ := list (string * Cell).

(** Python [d[k] = v] on a dict: an existing key keeps its position. *)
Fixpoint dict_insert (k : string) (v : Cell) (d : Record_) : Record_ :=
  match d with
  | [] => [(k, v)]
  | (k', v') :: d' =>
      if String.eqb k k' then (k', v) :: d' else (k', v') :: dict_insert k v d'
  end.

(** [dict(zip(columns, row))]: later duplicates overwrite earlier ones. *)
Definition dict_of_pairs (l : list (string * Cell)) : Record_ :=
  fold_left (fun d kv => dict_insert (fst kv) (snd kv) d) l [].

Fixpoint dict_lookup (k : string) (d : Record_) : option Cell :=
  match d with
  | [] => None
  | (k', v) :: d' => if String.eqb k k' then Some v else dict_lookup k d'
  end.

(** [lib.to_object_array]: the frame is as wide as the widest row ... *)
Definition max_row_len (rows : list (list string)) : nat :=
  fold_left (fun k r => Nat.max k (length r)) rows 0.

(** ... and shorter rows are padded with the missing value. *)
Definition pad_row (k : nat) (r : list string) : list Cell :=
  map Some r ++ repeat None (k - length r).

(** [pd.DataFrame(rows, columns=cols)], as its list of rows of cells.  An
    empty [rows] gives an empty frame with the given columns; otherwise
    [_validate_or_indexify_columns] raises ValueError when the number of
    columns differs from the width of the data. *)
Definition pd_DataFrame (rows : list (list string)) (cols : list string)
  : Result (list (list Cell)) :=
  match rows with
  | [] => Ok []
  | _ :: _ =>
      let k := max_row_len rows in
      if Nat.eqb (length cols) k
      then Ok (map (pad_row k) rows)
      else Err (ValueError (string_of_nat (length cols) ++
                  " columns passed, passed data had " ++ string_of_nat k ++
                  " columns"))
  end.

(** [df.to_dict('records')]: [dict(zip(columns, t))] for every tuple [t] of
    [df.itertuples(index=False)], which zips the columns; a frame without
    columns yields no tuple, hence no record, whatever its length. *)
Definition to_dict_records (cols : list string) (df : list (list Cell))
  : list Record_ :=
  match cols with
  | [] => []
  | _ :: _ => map (fun cells => dict_of_pairs (combine cols cells)) df
  end.

(** The two steps together. *)
Definition dataframe_to_records (rows : list (list string)) (cols : list string)
  : Result (list Record_) :=
  match pd_DataFrame rows cols with
  | Ok df => Ok (to_dict_records cols df)
  | Err e => Err e
  end.

(** ** api_handler.py *)

(** [APIHandler.process_stripe_webhook]; returns None. *)
Definition process_stripe_webhook (env : Env) (payload : list (string * string))
  : M unit :=
  try_except
    (body <- getitem payload "payload" ;;
     sig <- getitem payload "sig" ;;
     self <- get_self ;;
     issue (ConstructEvent body sig (stripe_key self)) ;;;
     event <- lift (construct_event env body sig (stripe_key self)) ;;
     type_ <- getattr (ev_type event) "type" ;;
     if String.eqb type_ "payment_succeeded"
     then id <- getattr (ev_id event) "id" ;;
          logger_info ("Payment succeeded: " ++ id)
     else ret tt)
    (fun e =>
       if is_stripe_error e
       then logger_error "Stripe error" e ;;; raise e
       else logger_error "Unexpected error processing Stripe webhook" e ;;; raise e).

Record AwsUsage := mkAwsUsage { buckets : list string; region : option string }.

(** [APIHandler.get_aws_usage]; only a [Boto3Error] is logged, every
    exception is re-raised. *)
Definition get_aws_usage (env : Env) : M AwsUsage :=
  try_except
    (self <- get_self ;;
     issue (S3ListBuckets (aws_access_key_id self) (aws_secret_access_key self)) ;;;
     response <- lift (s3_list_buckets env (aws_access_key_id self)
                         (aws_secret_access_key self)) ;;
     ret (mkAwsUsage (map Name (Buckets response)) (s3_region_name env)))
    (fun e =>
       if is_boto3_error e then logger_error "AWS Error" e ;;; raise e
       else raise e).

Definition ga_request_body : GARequest :=
  mkGARequest ["activeUsers"] ["date"] "2023-01-01" "2023-12-31".

(** [APIHandler.get_google_analytics_data].  The module binds [data_v4]
    only, so evaluating the except clause's class expression
    [google.api_core.exceptions.GoogleAPIError] raises NameError whenever
    the query raises. *)
Definition get_google_analytics_data (env : Env) (property_id : string)
  : M GAResponse :=
  try_except
    (self <- get_self ;;
     issue (GAQueryReport (ganalytics_api_key self) ga_request_body property_id) ;;;
     lift (ga_query_report env (ganalytics_api_key self) ga_request_body
             property_id))
    (fun _ => raise (NameError "google")).

(** ** data_collector.py (the collector's only field is its [APIHandler]) *)

Definition stripe_payouts_endpoint : string := "https://api.stripe.com/v1/payouts".

(** [response.raise_for_status()] *)
Definition raise_for_status (r : HttpResponse) : M unit :=
  if ((400 <=? status_code r) && (status_code r <? 600))%Z
  then raise (HTTPError (status_code r))
  else ret tt.

(** [DataCollector._fetch_stripe_data] *)
Definition _fetch_stripe_data (env : Env) (saas_id : string) : M Json :=
  try_except
    (self <- get_self ;;
     let endpoint := stripe_payouts_endpoint in
     let headers := [("Authorization", "Bearer " ++ stripe_key self)] in
     issue (HttpGet endpoint headers) ;;;
     response <- lift (http_get env endpoint headers) ;;
     raise_for_status response ;;;
     lift (json_body response))
    (fun e =>
       if is_request_exception e
       then logger_error "Stripe API request failed" e ;;; raise e
       else raise e).

Definition getitem_opt {A} (o : option A) (k : string) : M A :=
  match o with
  | Some v => ret v
  | None => raise (KeyError k)
  end.

(** [DataCollector._fetch_google_analytics_data] *)
Definition _fetch_google_analytics_data (env : Env) (saas_id : string)
  : M (list Record_) :=
  try_except
    (response <- get_google_analytics_data env saas_id ;;
     rows <- getitem_opt (ga_rows response) "rows" ;;
     cols <- getitem_opt (ga_columnHeaders response) "columnHeaders" ;;
     df <- lift (pd_DataFrame rows cols) ;;
     logger_info ("Successfully processed " ++ string_of_nat (length df) ++
                  " rows of GA data") ;;;
     ret (to_dict_records cols df))
    (fun e => logger_error "Failed to process Google Analytics data" e ;;; raise e).

Record UsageData := mkUsageData {
  stripe : Json;
  aws : AwsUsage;
  ga : list Record_
}.

(** [DataCollector.fetch_saaS_usage] *)
Definition fetch_saaS_usage (env : Env) (saas_id : string) : M UsageData :=
  try_except
    (stripe_data <- _fetch_stripe_data env saas_id ;;
     aws_data <- get_aws_usage env ;;
     ga_data <- _fetch_google_analytics_data env saas_id ;;
     ret (mkUsageData stripe_data aws_data ga_data))
    (fun e => logger_error "Failed to fetch SaaS usage" e ;;; raise e).

(** Every public or internal operation, run on a handler. *)
Inductive Op : Type :=
| OpProcessStripeWebhook (payload : list (string * string))
| OpGetAwsUsage
| OpGetGoogleAnalyticsData (property_id : string)
| OpFetchStripeData (saas_id : string)
| OpFetchGoogleAnalyticsData (saas_id : string)
| OpFetchSaaSUsage (saas_id : string).

Definition run_op (env : Env) (op : Op) (st : APIHandler) : APIHandler :=
  match op with
  | OpProcessStripeWebhook p => snd (process_stripe_webhook env p st)
  | OpGetAwsUsage => snd (get_aws_usage env st)
  | OpGetGoogleAnalyticsData pid => snd (get_google_analytics_data env pid st)
  | OpFetchStripeData id => snd (_fetch_stripe_data env id st)
  | OpFetchGoogleAnalyticsData id => snd (_fetch_google_analytics_data env id st)
  | OpFetchSaaSUsage id => snd (fetch_saaS_usage env id st)
  end.

Fixpoint run_ops (env : Env) (ops : list Op) (st : APIHandler) : APIHandler :=
  match ops with
  | [] => st
  | op :: ops' => run_ops env ops' (run_op env op st)
  end.

(** ** Concrete vendor behaviours used to evaluate the operations *)

Definition sample_payouts : Json :=
  JObj [("object", JStr "list"); ("data", JArr [])].

Definition sample_ga_response : GAResponse :=
  mkGAResponse (Some [["2023-01-01"; "10"]; ["2023-01-02"; "12"]])
    (Some ["date"; "activeUsers"]).

(** All three providers answer; the webhook verifier accepts the signature
    ["v1=" ++ secret] and decodes one fixed event. *)
Definition env_with_event (ev : Event) : Env :=
  mkEnv
    (fun _ sig secret =>
       if String.eqb sig ("v1=" ++ secret) then Ok ev
       else Err (SignatureVerificationError
                   "No signatures found matching the expected signature for payload"))
    (fun _ _ => Ok (mkHttpResponse 200 (Ok sample_payouts)))
    (fun _ _ => Ok (mkS3Resp [mkS3Bucket "logs" "2023-01-01"]))
    (Some "us-east-1")
    (fun _ _ _ => Ok sample_ga_response).

Definition ok_env : Env :=
  env_with_event (mkEvent (Some "payment_succeeded") (Some "evt_1")).

(** [ok_env] with the payments API unreachable. *)
Definition stripe_down_env : Env :=
  mkEnv (construct_event ok_env)
    (fun _ _ => Err (ConnectionError "Max retries exceeded"))
    (s3_list_buckets ok_env) (s3_region_name ok_env) (ga_query_report ok_env).

(** [ok_env] with an S3 client whose credentials are rejected or whose
    endpoint cannot be reached. *)
Definition s3_env (err : PyExc) : Env :=
  mkEnv (construct_event ok_env) (http_get ok_env)
    (fun _ _ => Err err) (s3_region_name ok_env) (ga_query_report ok_env).

(** [ok_env] with an analytics response of the given rows and headers. *)
Definition ga_env (rows : list (list string)) (hs : list string) : Env :=
  mkEnv (construct_event ok_env) (http_get ok_env)
    (s3_list_buckets ok_env) (s3_region_name ok_env)
    (fun _ _ _ => Ok (mkGAResponse (Some rows) (Some hs))).

Definition is_ok {A} (r : Result A) : bool :=
  match r with Ok _ => true | Err _ => false end.

(** Results of the three provider sub-fetches of [fetch_saaS_usage], each
    run on the handler [st]. *)
Definition stripe_result (env : Env) (id : string) (st : APIHandler) :=
  fst (_fetch_stripe_data env id st).
Definition aws_result (env : Env) (st : APIHandler) :=
  fst (get_aws_usage env st).
Definition ga_result (env : Env) (id : string) (st : APIHandler) :=
  fst (_fetch_google_analytics_data env id st).

(** Exactly one sub-fetch raises, and it raises [e]. *)
Definition exactly_one_fails (env : Env) (id : string) (st : APIHandler)
  (e : PyExc) : Prop :=
  (stripe_result env id st = Err e /\ is_ok (aws_result env st) = true /\
     is_ok (ga_result env id st) = true) \/
  (is_ok (stripe_result env id st) = true /\ aws_result env st = Err e /\
     is_ok (ga_result env id st) = true) \/
  (is_ok (stripe_result env id st) = true /\ is_ok (aws_result env st) = true /\
     ga_result env id st = Err e).

(** The tagged outcome the spec describes for a verified webhook event
    (spec wording, compared with [process_stripe_webhook] below). *)
Inductive EventOutcome : Type :=
| PaymentSucceeded (id : string)
| Other (type : string).

Definition spec_outcome (type_ id : string) : EventOutcome :=
  if String.eqb type_ "payment_succeeded" then PaymentSucceeded id
  else Other type_.

Definition signed_payload (sig : string) : list (string * string) :=
  [("payload", "{}"); ("sig", sig)].

(** [ok_env] whose webhook verifier raises [e] (for instance the ValueError
    of a body that is not JSON). *)
Definition verifier_error_env (e : PyExc) : Env :=
  mkEnv (fun _ _ _ => Err e) (http_get ok_env)
    (s3_list_buckets ok_env) (s3_region_name ok_env) (ga_query_report ok_env).

(** * Proofs *)

Ltac destruct_matches :=
  repeat match goal with
  | |- context [match ?x with _ => _ end] =>
      lazymatch x with
      | context [match _ with _ => _ end] => fail
      | _ => destruct x eqn:?
      end
  end.

Ltac run_op_tac :=
  unfold fetch_saaS_usage, process_stripe_webhook, get_aws_usage,
    _fetch_stripe_data, _fetch_google_analytics_data,
    get_google_analytics_data, getitem, getitem_opt, getattr,
    raise_for_status in *;
  unfold try_except, bind, ret, raise, lift, get_self, issue, logger_info,
    logger_error, credentials in *;
  simpl in *; destruct_matches; simpl in *.

(** ** Frame lemmas: credentials are never written *)

Lemma stripe_data_keeps_credentials env id st :
  credentials (snd (_fetch_stripe_data env id st)) = credentials st.
Proof. destruct st; run_op_tac; reflexivity. Qed.

Lemma aws_usage_keeps_credentials env st :
  credentials (snd (get_aws_usage env st)) = credentials st.
Proof. destruct st; run_op_tac; reflexivity. Qed.

Lemma ga_query_keeps_credentials env pid st :
  credentials (snd (get_google_analytics_data env pid st)) = credentials st.
Proof. destruct st; run_op_tac; reflexivity. Qed.

Lemma ga_data_keeps_credentials env id st :
  credentials (snd (_fetch_google_analytics_data env id st)) = credentials st.
Proof. destruct st; run_op_tac; reflexivity. Qed.

Lemma webhook_keeps_credentials env payload st :
  credentials (snd (process_stripe_webhook env payload st)) = credentials st.
Proof. destruct st; run_op_tac; reflexivity. Qed.

Lemma usage_keeps_credentials env id st :
  credentials (snd (fetch_saaS_usage env id st)) = credentials st.
Proof. destruct st; run_op_tac; reflexivity. Qed.

Lemma run_op_keeps_credentials env op st :
  credentials (run_op env op st) = credentials st.
Proof.
  destruct op; simpl.
  - apply webhook_keeps_credentials.
  - apply aws_usage_keeps_credentials.
  - apply ga_query_keeps_credentials.
  - apply stripe_data_keeps_credentials.
  - apply ga_data_keeps_credentials.
  - apply usage_keeps_credentials.
Qed.

(** ** The sub-fetches read the handler's credentials only *)

Ltac same_credentials st st' :=
  destruct st as [k1 k2 k3 k4 l s], st' as [k1' k2' k3' k4' l' s'];
  unfold credentials; simpl; intros [= <- <- <- <-].

Lemma stripe_data_result env id st st' :
  credentials st = credentials st' ->
  fst (_fetch_stripe_data env id st) = fst (_fetch_stripe_data env id st').
Proof. same_credentials st st'; run_op_tac; reflexivity. Qed.

Lemma aws_usage_result env st st' :
  credentials st = credentials st' ->
  fst (get_aws_usage env st) = fst (get_aws_usage env st').
Proof. same_credentials st st'; run_op_tac; reflexivity. Qed.

Lemma ga_data_result env id st st' :
  credentials st = credentials st' ->
  fst (_fetch_google_analytics_data env id st) =
  fst (_fetch_google_analytics_data env id st').
Proof. same_credentials st st'; run_op_tac; reflexivity. Qed.

Lemma run_ops_keeps_credentials env ops st :
  credentials (run_ops env ops st) = credentials st.
Proof.
  revert st; induction ops as [|op ops IH]; intro st; simpl.
  - reflexivity.
  - rewrite IH; apply run_op_keeps_credentials.
Qed.

(** Result of [fetch_saaS_usage]: the sub-fetches in order, the first
    exception aborting the rest. *)
Lemma fetch_usage_result env id st :
  fst (fetch_saaS_usage env id st) =
  match stripe_result env id st, aws_result env st, ga_result env id st with
  | Ok s, Ok a, Ok g => Ok (mkUsageData s a g)
  | Err e, _, _ => Err e
  | Ok _, Err e, _ => Err e
  | Ok _, Ok _, Err e => Err e
  end.
Proof.
  unfold fetch_saaS_usage, try_except, bind, ret, stripe_result, aws_result,
    ga_result.
  destruct (_fetch_stripe_data env id st) as [[s|e] st1] eqn:E1; simpl.
  2: { unfold logger_error, raise; simpl; reflexivity. }
  assert (C1 : credentials st1 = credentials st)
    by (rewrite <- (stripe_data_keeps_credentials env id st), E1; reflexivity).
  rewrite <- (aws_usage_result env st1 st C1).
  destruct (get_aws_usage env st1) as [[a|e] st2] eqn:E2; simpl.
  2: { unfold logger_error, raise; simpl; reflexivity. }
  assert (C2 : credentials st2 = credentials st).
  { rewrite <- C1, <- (aws_usage_keeps_credentials env st1), E2; reflexivity. }
  rewrite <- (ga_data_result env id st2 st C2).
  destruct (_fetch_google_analytics_data env id st2) as [[g|e] st3]; simpl.
  - reflexivity.
  - unfold logger_error, raise; simpl; reflexivity.
Qed.

(** When the collection raises, the exception is logged last. *)
Lemma fetch_usage_logs_error env id st e :
  fst (fetch_saaS_usage env id st) = Err e ->
  exists l : list LogEntry, log (snd (fetch_saaS_usage env id st)) =
            (l ++ [LogError "Failed to fetch SaaS usage" e])%list.
Proof.
  unfold fetch_saaS_usage, try_except.
  destruct (bind _ _ st) as [[u|e'] st'].
  - simpl; discriminate.
  - unfold bind, logger_error, raise; simpl; intros [= ->].
    exists (log st'); reflexivity.
Qed.

(** ** Requests issued by the sub-fetches *)

Lemma stripe_data_sent env id st :
  sent (snd (_fetch_stripe_data env id st)) =
  (sent st ++ [HttpGet stripe_payouts_endpoint
                 [("Authorization", ("Bearer " ++ stripe_key st)%string)]])%list.
Proof. destruct st; run_op_tac; reflexivity. Qed.

Lemma aws_usage_sent env st :
  sent (snd (get_aws_usage env st)) =
  (sent st ++ [S3ListBuckets (aws_access_key_id st) (aws_secret_access_key st)])%list.
Proof. destruct st; run_op_tac; reflexivity. Qed.

Lemma ga_data_sent env id st :
  sent (snd (_fetch_google_analytics_data env id st)) =
  (sent st ++ [GAQueryReport (ganalytics_api_key st) ga_request_body id])%list.
Proof. destruct st; run_op_tac; reflexivity. Qed.

(** Requests issued by [fetch_saaS_usage]: each sub-fetch issues its
    request first, and a failing sub-fetch stops the later ones. *)
Lemma fetch_usage_sent env id st :
  sent (snd (fetch_saaS_usage env id st)) =
  (sent st ++
   HttpGet stripe_payouts_endpoint
     [("Authorization", ("Bearer " ++ stripe_key st)%string)] ::
   match stripe_result env id st with
   | Err _ => []
   | Ok _ =>
       S3ListBuckets (aws_access_key_id st) (aws_secret_access_key st) ::
       match aws_result env st with
       | Err _ => []
       | Ok _ => [GAQueryReport (ganalytics_api_key st) ga_request_body id]
       end
   end)%list.
Proof.
  unfold fetch_saaS_usage, try_except, bind, ret, stripe_result, aws_result.
  pose proof (stripe_data_sent env id st) as S1.
  pose proof (stripe_data_keeps_credentials env id st) as K1.
  destruct (_fetch_stripe_data env id st) as [[s|e] st1] eqn:E1; simpl in *.
  2: { unfold logger_error, raise; simpl; rewrite S1; reflexivity. }
  rewrite <- (aws_usage_result env st1 st K1).
  pose proof K1 as K1'; unfold credentials in K1'; injection K1' as Ka Kb Kc Kd.
  pose proof (aws_usage_sent env st1) as S2.
  pose proof (aws_usage_keeps_credentials env st1) as K2.
  destruct (get_aws_usage env st1) as [[a|e] st2] eqn:E2; simpl in *.
  2: { unfold logger_error, raise; simpl; rewrite S2, S1, Kb, Kc.
       rewrite <- app_assoc; reflexivity. }
  pose proof (ga_data_sent env id st2) as S3.
  unfold credentials in K2.
  injection K2 as Ka' Kb' Kc' Kd'.
  destruct (_fetch_google_analytics_data env id st2) as [[g|e] st3]; simpl in *;
    [|unfold logger_error, raise; simpl];
    rewrite S3, S2, S1, Kd', Kd, Kb, Kc, <- !app_assoc; reflexivity.
Qed.

(** ** C9 *)

(** C9: the credential fields (payments key, storage access-key id and
    secret key, analytics key) are set by [__init__] and never changed: every
    operation leaves them equal to their value before the call, so after any
    sequence of operations on a fresh handler they are still the values
    [__init__] assigned. *)
Theorem credentials_never_mutated :
  (forall env op st, credentials (run_op env op st) = credentials st) /\
  (forall env ops,
     credentials (run_ops env ops init) =
     ("STRIPE_API_KEY", "AWS_ACCESS_KEY_ID", "AWS_SECRET_ACCESS_KEY",
      "G_ANALYTICS_API_KEY")).
Proof.
  split.
  - apply run_op_keeps_credentials.
  - intros env ops; rewrite run_ops_keeps_credentials; reflexivity.
Qed.

(** ** C10 *)

(** C10: [_fetch_stripe_data] does not depend on the application id: for any
    two ids it issues the same request (the payouts endpoint with the
    bearer header built from the handler's payments key) and returns the
    same result, with the same effects. *)
Theorem stripe_data_ignores_saas_id env id1 id2 st :
  _fetch_stripe_data env id1 st = _fetch_stripe_data env id2 st /\
  sent (snd (_fetch_stripe_data env id1 st)) =
  (sent st ++ [HttpGet stripe_payouts_endpoint
                 [("Authorization", ("Bearer " ++ stripe_key st)%string)]])%list.
Proof.
  split; [reflexivity|].
  destruct st; run_op_tac; reflexivity.
Qed.

(** ** C1 *)

(** C1 (as stated, refuted): with the payments API unreachable and the
    other two providers answering, [fetch_saaS_usage] returns no record: it
    raises the payments failure. *)
Lemma fetch_usage_one_failure_counterexample :
  ~ (forall env id st e, exactly_one_fails env id st e ->
       is_ok (fst (fetch_saaS_usage env id st)) = true).
Proof.
  intro H.
  specialize (H stripe_down_env "app_1" init
                (ConnectionError "Max retries exceeded")).
  vm_compute in H.
  discriminate H. left; repeat split.
Qed.

(** C1 (amended): when exactly one of the three sub-fetches raises [e],
    [fetch_saaS_usage] returns no record: it logs "Failed to fetch SaaS
    usage" with [e] and re-raises [e]. *)
Theorem fetch_usage_one_failure_reraises env id st e :
  exactly_one_fails env id st e ->
  fst (fetch_saaS_usage env id st) = Err e /\
  exists l : list LogEntry, log (snd (fetch_saaS_usage env id st)) =
            (l ++ [LogError "Failed to fetch SaaS usage" e])%list.
Proof.
  intro H.
  assert (R : fst (fetch_saaS_usage env id st) = Err e).
  { rewrite fetch_usage_result.
    destruct H as [(H1 & H2 & H3) | [(H1 & H2 & H3) | (H1 & H2 & H3)]];
      rewrite ?H1, ?H2, ?H3;
      destruct (stripe_result env id st); try discriminate;
      destruct (aws_result env st); try discriminate;
      destruct (ga_result env id st); try discriminate; reflexivity. }
  split; [exact R | exact (fetch_usage_logs_error env id st e R)].
Qed.

Lemma fetch_usage_one_failure_reraises_witness :
  exactly_one_fails stripe_down_env "app_1" init
    (ConnectionError "Max retries exceeded") /\
  fst (fetch_saaS_usage stripe_down_env "app_1" init) =
    Err (ConnectionError "Max retries exceeded").
Proof.
  assert (H : exactly_one_fails stripe_down_env "app_1" init
                (ConnectionError "Max retries exceeded"))
    by (left; vm_compute; repeat split).
  split; [exact H|].
  exact (proj1 (fetch_usage_one_failure_reraises _ _ _ _ H)).
Defined.

(** ** C2 *)

(** C2 (as stated, refuted): a sub-fetch failure is not an assembly error,
    yet [fetch_saaS_usage] raises it: with the payments API unreachable the
    collection raises the connection error instead of returning a record. *)
Lemma fetch_usage_raises_counterexample :
  fst (fetch_saaS_usage stripe_down_env "app_1" init) =
    Err (ConnectionError "Max retries exceeded") /\
  ~ (forall env id st, exists u, fst (fetch_saaS_usage env id st) = Ok u).
Proof.
  split.
  - vm_compute; reflexivity.
  - intro H; destruct (H stripe_down_env "app_1" init) as [u Hu].
    vm_compute in Hu; discriminate Hu.
Qed.

(** C2 (amended): [fetch_saaS_usage] returns a usage record exactly when all
    three sub-fetches return normally, and the record then holds their
    three results; otherwise it raises the exception of the first failing
    sub-fetch (payments, storage, analytics in this order), and the later
    sub-fetches are not run: each sub-fetch issues its vendor request first,
    and the requests of the later ones are absent from the trace.  Building
    the record itself never raises. *)
Theorem fetch_usage_returns_iff_all_succeed env id st :
  (forall u, fst (fetch_saaS_usage env id st) = Ok u <->
     stripe_result env id st = Ok (stripe u) /\
     aws_result env st = Ok (aws u) /\
     ga_result env id st = Ok (ga u)) /\
  (forall e, fst (fetch_saaS_usage env id st) = Err e <->
     stripe_result env id st = Err e \/
     (is_ok (stripe_result env id st) = true /\ aws_result env st = Err e) \/
     (is_ok (stripe_result env id st) = true /\
      is_ok (aws_result env st) = true /\ ga_result env id st = Err e)) /\
  sent (snd (fetch_saaS_usage env id st)) =
  (sent st ++
   HttpGet stripe_payouts_endpoint
     [("Authorization", ("Bearer " ++ stripe_key st)%string)] ::
   match stripe_result env id st with
   | Err _ => []
   | Ok _ =>
       S3ListBuckets (aws_access_key_id st) (aws_secret_access_key st) ::
       match aws_result env st with
       | Err _ => []
       | Ok _ => [GAQueryReport (ganalytics_api_key st) ga_request_body id]
       end
   end)%list.
Proof.
  split; [|split; [|apply fetch_usage_sent]];
  rewrite fetch_usage_result;
  destruct (stripe_result env id st) as [s|e1],
           (aws_result env st) as [a|e2],
           (ga_result env id st) as [g|e3]; simpl;
  intros x; try destruct x; simpl; intuition congruence.
Qed.

(** ** C3 *)

(** C3 (as stated, refuted): the handler returns None, so no tagged outcome
    can be read off what it produces.  Two accepted webhooks carrying events
    of different non-payment types ("customer.created", "invoice.paid")
    give the same return value and the same handler state, so no reading of
    the handler's result yields [Other type] for both. *)
Lemma webhook_outcome_counterexample :
  ~ (exists outcome_of : Result unit * APIHandler -> option EventOutcome,
       forall env payload st body sig type_ id,
         assoc "payload" payload = Some body ->
         assoc "sig" payload = Some sig ->
         construct_event env body sig (stripe_key st) =
           Ok (mkEvent (Some type_) (Some id)) ->
         outcome_of (process_stripe_webhook env payload st) =
           Some (spec_outcome type_ id)).
Proof.
  intros [outcome_of H].
  pose proof (H (env_with_event (mkEvent (Some "customer.created") (Some "evt_1")))
                (signed_payload "v1=STRIPE_API_KEY") init "{}"
                "v1=STRIPE_API_KEY" "customer.created" "evt_1"
                eq_refl eq_refl eq_refl) as Ha.
  pose proof (H (env_with_event (mkEvent (Some "invoice.paid") (Some "evt_1")))
                (signed_payload "v1=STRIPE_API_KEY") init "{}"
                "v1=STRIPE_API_KEY" "invoice.paid" "evt_1"
                eq_refl eq_refl eq_refl) as Hb.
  assert (Same : process_stripe_webhook
                   (env_with_event (mkEvent (Some "customer.created") (Some "evt_1")))
                   (signed_payload "v1=STRIPE_API_KEY") init =
                 process_stripe_webhook
                   (env_with_event (mkEvent (Some "invoice.paid") (Some "evt_1")))
                   (signed_payload "v1=STRIPE_API_KEY") init)
    by (vm_compute; reflexivity).
  rewrite Same, Hb in Ha.
  vm_compute in Ha; discriminate Ha.
Qed.

(** C3 (amended): for a payload dict whose body and signature the Stripe
    verifier accepts under the handler's payments key,
    [process_stripe_webhook] never raises a verification error: the only
    exception it can raise is the AttributeError of a verified event that
    lacks a field it reads, logged as an unexpected error.  When the event
    has a type other than "payment_succeeded" it returns None and logs
    nothing; when the type is "payment_succeeded" and the event has an id,
    it returns None and logs "Payment succeeded: <id>".  No tagged outcome
    is produced. *)
Theorem webhook_accepted_returns_none env payload st body sig ev :
  assoc "payload" payload = Some body -> assoc "sig" payload = Some sig ->
  construct_event env body sig (stripe_key st) = Ok ev ->
  (forall e, fst (process_stripe_webhook env payload st) = Err e ->
     (exists name, e = AttributeError name) /\
     log (snd (process_stripe_webhook env payload st)) =
       (log st ++ [LogError "Unexpected error processing Stripe webhook" e])%list) /\
  (forall type_, ev_type ev = Some type_ -> type_ <> "payment_succeeded" ->
     fst (process_stripe_webhook env payload st) = Ok tt /\
     log (snd (process_stripe_webhook env payload st)) = log st) /\
  (forall id, ev_type ev = Some "payment_succeeded" -> ev_id ev = Some id ->
     fst (process_stripe_webhook env payload st) = Ok tt /\
     log (snd (process_stripe_webhook env payload st)) =
       (log st ++ [LogInfo ("Payment succeeded: " ++ id)])%list).
Proof.
  intros H1 H2 H3.
  unfold process_stripe_webhook, getitem, getattr, try_except, bind, get_self,
    issue, lift, ret, raise, logger_info, logger_error.
  rewrite H1, H2; simpl; rewrite H3.
  destruct ev as [[ty|] oid]; simpl.
  - destruct (String.eqb ty "payment_succeeded") eqn:E; simpl.
    + apply String.eqb_eq in E; subst ty.
      destruct oid as [id|]; simpl.
      * split; [intros e He; discriminate|].
        split; [intros t Ht Hne; injection Ht as Ht; subst; contradiction|].
        intros i _ Hi; injection Hi as Hi; subst; split; reflexivity.
      * split; [intros e He; injection He as He; subst e;
                split; [eexists; reflexivity | reflexivity]|].
        split; [intros t Ht Hne; injection Ht as Ht; subst; contradiction|].
        intros i _ Hi; discriminate.
    + split; [intros e He; discriminate|].
      split; [intros t _ _; split; reflexivity|].
      intros i Ht _; injection Ht as Ht; subst.
      rewrite String.eqb_refl in E; discriminate.
  - split; [intros e He; injection He as He; subst e;
            split; [eexists; reflexivity | reflexivity]|].
    split; [intros t Ht; discriminate|].
    intros i Ht; discriminate.
Qed.

Lemma webhook_accepted_returns_none_witness :
  fst (process_stripe_webhook ok_env (signed_payload "v1=STRIPE_API_KEY") init)
    = Ok tt /\
  log (snd (process_stripe_webhook ok_env (signed_payload "v1=STRIPE_API_KEY")
              init)) = [LogInfo "Payment succeeded: evt_1"].
Proof.
  exact (proj2 (proj2 (webhook_accepted_returns_none ok_env
           (signed_payload "v1=STRIPE_API_KEY") init "{}" "v1=STRIPE_API_KEY"
           (mkEvent (Some "payment_succeeded") (Some "evt_1"))
           eq_refl eq_refl eq_refl)) "evt_1" eq_refl eq_refl).
Defined.

(** ** C4 *)

(** C4: when the signature does not verify against the handler's payments
    key, the verifier raises Stripe's SignatureVerificationError (the
    signature-invalid error) and [process_stripe_webhook] fails with that
    same error, after logging it as a Stripe error. *)
Theorem webhook_tampered_signature_fails env payload st body sig msg :
  assoc "payload" payload = Some body -> assoc "sig" payload = Some sig ->
  construct_event env body sig (stripe_key st) =
    Err (SignatureVerificationError msg) ->
  fst (process_stripe_webhook env payload st) =
    Err (SignatureVerificationError msg) /\
  log (snd (process_stripe_webhook env payload st)) =
    (log st ++ [LogError "Stripe error" (SignatureVerificationError msg)])%list.
Proof.
  intros H1 H2 H3.
  unfold process_stripe_webhook, getitem, try_except, bind, get_self, issue,
    lift, ret, raise, logger_error.
  rewrite H1, H2; simpl; rewrite H3; simpl.
  split; reflexivity.
Qed.

Lemma webhook_tampered_signature_fails_witness :
  fst (process_stripe_webhook ok_env (signed_payload "v1=forged") init) =
    Err (SignatureVerificationError
           "No signatures found matching the expected signature for payload").
Proof.
  exact (proj1 (webhook_tampered_signature_fails ok_env
                  (signed_payload "v1=forged") init "{}" "v1=forged"
                  "No signatures found matching the expected signature for payload"
                  eq_refl eq_refl eq_refl)).
Defined.

(** ** C7 *)

(** C7 (as stated, refuted): [get_aws_usage] does not turn storage
    failures into one error kind.  With rejected credentials it raises the
    S3 client's ClientError "InvalidAccessKeyId", with an unreachable
    endpoint a different botocore exception; neither is logged, since the
    except clause names only Boto3Error. *)
Lemma aws_usage_failure_counterexample :
  get_aws_usage (s3_env (ClientError "InvalidAccessKeyId")) init =
    (Err (ClientError "InvalidAccessKeyId"),
     mkAPIHandler "STRIPE_API_KEY" "AWS_ACCESS_KEY_ID" "AWS_SECRET_ACCESS_KEY"
       "G_ANALYTICS_API_KEY" []
       [S3ListBuckets "AWS_ACCESS_KEY_ID" "AWS_SECRET_ACCESS_KEY"]) /\
  fst (get_aws_usage (s3_env (BotocoreError "Could not connect to the endpoint URL"))
         init) = Err (BotocoreError "Could not connect to the endpoint URL") /\
  ~ (exists provider_unavailable : PyExc,
       forall env st e,
         s3_list_buckets env (aws_access_key_id st) (aws_secret_access_key st)
           = Err e ->
         fst (get_aws_usage env st) = Err provider_unavailable).
Proof.
  split; [vm_compute; reflexivity|].
  split; [vm_compute; reflexivity|].
  intros [pu H].
  pose proof (H (s3_env (ClientError "InvalidAccessKeyId")) init _ eq_refl) as Ha.
  pose proof (H (s3_env (BotocoreError "Could not connect to the endpoint URL"))
                init _ eq_refl) as Hb.
  vm_compute in Ha, Hb; congruence.
Qed.

(** C7 (amended): [get_aws_usage] lists the buckets with the handler's
    storage credentials; on success it returns the bucket names in order
    and the client's region, and on any failure it re-raises the S3
    client's exception unchanged, with no mapping to another error kind. *)
Theorem aws_usage_spec env st :
  sent (snd (get_aws_usage env st)) =
    (sent st ++ [S3ListBuckets (aws_access_key_id st) (aws_secret_access_key st)])%list /\
  fst (get_aws_usage env st) =
  match s3_list_buckets env (aws_access_key_id st) (aws_secret_access_key st) with
  | Ok resp => Ok (mkAwsUsage (map Name (Buckets resp)) (s3_region_name env))
  | Err e => Err e
  end.
Proof.
  split; [apply aws_usage_sent|].
  unfold get_aws_usage, try_except, bind, get_self, issue, lift, ret, raise,
    logger_error; simpl.
  destruct (s3_list_buckets env _ _) as [r|e]; simpl; [reflexivity|].
  destruct (is_boto3_error e); reflexivity.
Qed.

(** ** C8 *)

(** The report query [get_google_analytics_data] submits, for the claim's
    reading where a date window is given. *)
Definition spec_ga_query (api_key property_id start end_ : string) : Request :=
  GAQueryReport api_key (mkGARequest ["activeUsers"] ["date"] start end_)
    property_id.

(** C8 (as stated, refuted): the method takes no date window; asked for
    2024-01-01..2024-12-31 it still queries 2023-01-01..2023-12-31. *)
Lemma ga_query_window_counterexample :
  ~ (forall env property_id start end_ st,
       sent (snd (get_google_analytics_data env property_id st)) =
       (sent st ++ [spec_ga_query (ganalytics_api_key st) property_id start end_])%list).
Proof.
  intro H.
  specialize (H ok_env "properties/1" "2024-01-01" "2024-12-31" init).
  vm_compute in H; discriminate H.
Qed.

(** C8 (amended): for every property id, [get_google_analytics_data]
    submits exactly one report query, with the handler's analytics key,
    metric activeUsers, dimension date and the fixed date window
    2023-01-01..2023-12-31, for that property. *)
Theorem ga_query_fixed_window env property_id st :
  sent (snd (get_google_analytics_data env property_id st)) =
  (sent st ++ [spec_ga_query (ganalytics_api_key st) property_id
                 "2023-01-01" "2023-12-31"])%list.
Proof.
  unfold get_google_analytics_data, try_except, bind, get_self, issue, lift,
    raise; simpl.
  destruct (ga_query_report env _ _ _); reflexivity.
Qed.

(** ** Dict and DataFrame lemmas *)

Lemma dict_lookup_insert k v d k' :
  dict_lookup k' (dict_insert k v d) =
  if String.eqb k' k then Some v else dict_lookup k' d.
Proof.
  induction d as [|[k0 v0] d IH]; simpl.
  - destruct (String.eqb k' k); reflexivity.
  - destruct (String.eqb k k0) eqn:E.
    + apply String.eqb_eq in E; subst k0; simpl.
      destruct (String.eqb k' k); reflexivity.
    + simpl. destruct (String.eqb k' k0) eqn:E2.
      * apply String.eqb_eq in E2; subst k0.
        rewrite String.eqb_sym, E; reflexivity.
      * exact IH.
Qed.

Lemma dict_keys_insert k v d x :
  In x (map fst (dict_insert k v d)) -> x = k \/ In x (map fst d).
Proof.
  induction d as [|[k0 v0] d IH]; simpl.
  - intros [H|[]]; auto.
  - destruct (String.eqb k k0); simpl; intros [H|H]; auto.
    destruct (IH H); auto.
Qed.

Definition dict_step (d : Record_) (kv : string * Cell) : Record_ :=
  dict_insert (fst kv) (snd kv) d.

Lemma dict_of_pairs_fold l : dict_of_pairs l = fold_left dict_step l [].
Proof. reflexivity. Qed.

Lemma fold_lookup_source l : forall d k c,
  dict_lookup k (fold_left dict_step l d) = Some c ->
  In (k, c) l \/ dict_lookup k d = Some c.
Proof.
  induction l as [|[k0 v0] l IH]; simpl; intros d k c H; auto.
  destruct (IH _ _ _ H) as [H'|H']; auto.
  unfold dict_step in H'; simpl in H'; rewrite dict_lookup_insert in H'.
  destruct (String.eqb k k0) eqn:E.
  - apply String.eqb_eq in E; subst k0; injection H' as <-; auto.
  - auto.
Qed.

Lemma fold_lookup_exists l : forall d k,
  (In k (map fst l) \/ exists c, dict_lookup k d = Some c) ->
  exists c, dict_lookup k (fold_left dict_step l d) = Some c.
Proof.
  induction l as [|[k0 v0] l IH]; simpl; intros d k H.
  - destruct H as [[]|H]; exact H.
  - apply IH. unfold dict_step; simpl; rewrite dict_lookup_insert.
    destruct (String.eqb k k0) eqn:E; [right; eauto|].
    apply String.eqb_neq in E.
    destruct H as [[H|H]|H]; auto; congruence.
Qed.

Lemma fold_keys l : forall d x,
  In x (map fst (fold_left dict_step l d)) ->
  In x (map fst l) \/ In x (map fst d).
Proof.
  induction l as [|[k0 v0] l IH]; simpl; intros d x H; auto.
  destruct (IH _ _ H) as [H'|H']; auto.
  destruct (dict_keys_insert _ _ _ _ H'); auto.
Qed.

Lemma in_combine_nth {A B} (xs : list A) (ys : list B) x y :
  In (x, y) (combine xs ys) ->
  exists i, nth_error xs i = Some x /\ nth_error ys i = Some y.
Proof.
  revert ys; induction xs as [|a xs IH]; intros [|b ys]; simpl; try tauto.
  intros [H|H].
  - injection H as -> ->; exists 0; auto.
  - destruct (IH _ H) as [i Hi]; exists (S i); exact Hi.
Qed.

Lemma map_fst_combine {A B} (xs : list A) (ys : list B) :
  length xs = length ys -> map fst (combine xs ys) = xs.
Proof.
  revert ys; induction xs as [|a xs IH]; intros [|b ys]; simpl;
    try discriminate; auto.
  intro H; f_equal; apply IH; congruence.
Qed.

(** A record built from a header list and a row of the same length maps
    every header to one of its cells, and has no other keys. *)
Lemma record_lookup hs (r : list string) h :
  length r = length hs -> In h hs ->
  exists i cell, nth_error hs i = Some h /\ nth_error r i = Some cell /\
    dict_lookup h (dict_of_pairs (combine hs (map Some r))) = Some (Some cell).
Proof.
  intros Hl Hin.
  assert (Hlen : length hs = length (map Some r)) by (rewrite length_map; auto).
  rewrite dict_of_pairs_fold.
  destruct (fold_lookup_exists (combine hs (map Some r)) [] h) as [c Hc].
  { left; rewrite map_fst_combine; auto. }
  destruct (fold_lookup_source _ _ _ _ Hc) as [Hc'|Hc']; [|discriminate].
  destruct (in_combine_nth _ _ _ _ Hc') as [i [Hi Hr]].
  rewrite nth_error_map in Hr.
  destruct (nth_error r i) as [cell|] eqn:E; [|discriminate].
  injection Hr as <-.
  exists i, cell; auto.
Qed.

Lemma record_keys hs (r : list string) k :
  In k (map fst (dict_of_pairs (combine hs (map Some r)))) -> In k hs.
Proof.
  rewrite dict_of_pairs_fold; intro H.
  destruct (fold_keys _ _ _ H) as [H'|[]].
  rewrite in_map_iff in H'; destruct H' as [[k' c] [<- Hin]].
  simpl; exact (in_combine_l _ _ _ _ Hin).
Qed.

Lemma max_row_len_acc (rows : list (list string)) : forall acc n,
  Forall (fun r => length r = n) rows ->
  fold_left (fun k r => Nat.max k (length r)) rows acc =
  match rows with [] => acc | _ :: _ => Nat.max acc n end.
Proof.
  induction rows as [|r rows IH]; intros acc n H; simpl; auto.
  inversion H as [|? ? Hr Hrs]; subst.
  rewrite (IH _ _ Hrs).
  destruct rows; auto. lia.
Qed.

Lemma max_row_len_uniform (rows : list (list string)) n :
  rows <> [] -> Forall (fun r => length r = n) rows -> max_row_len rows = n.
Proof.
  intros Hne H; unfold max_row_len; rewrite (max_row_len_acc _ 0 n H).
  destruct rows; [congruence|]; lia.
Qed.

Lemma dataframe_uniform rows hs :
  Forall (fun r => length r = length hs) rows ->
  dataframe_to_records rows hs =
  Ok (match hs with
      | [] => []
      | _ :: _ => map (fun r => dict_of_pairs (combine hs (map Some r))) rows
      end).
Proof.
  intro H; unfold dataframe_to_records, pd_DataFrame.
  destruct rows as [|r0 rows']; [destruct hs; reflexivity|].
  cbv zeta.
  rewrite (max_row_len_uniform _ (length hs)); [|discriminate|exact H].
  rewrite Nat.eqb_refl.
  assert (E : map (pad_row (length hs)) (r0 :: rows') = map (map Some) (r0 :: rows')).
  { apply map_ext_in; intros r Hr.
    rewrite Forall_forall in H; specialize (H r Hr).
    unfold pad_row; rewrite H, Nat.sub_diag; simpl; apply app_nil_r. }
  rewrite E; unfold to_dict_records.
  destruct hs; [reflexivity|].
  rewrite map_map; reflexivity.
Qed.

(** Once the query answered with [rows] and [columnHeaders],
    [_fetch_google_analytics_data] returns what the DataFrame reshaping
    returns, raising its error unchanged. *)
Lemma ga_data_reshape env id st rows hs :
  ga_query_report env (ganalytics_api_key st) ga_request_body id =
    Ok (mkGAResponse (Some rows) (Some hs)) ->
  fst (_fetch_google_analytics_data env id st) = dataframe_to_records rows hs.
Proof.
  intro H.
  unfold _fetch_google_analytics_data, get_google_analytics_data,
    dataframe_to_records, try_except, bind, get_self, issue, lift, getitem_opt,
    ret, raise, logger_info, logger_error; simpl.
  rewrite H; simpl.
  destruct (pd_DataFrame rows hs); reflexivity.
Qed.

(** ** C5 *)

(** C5 (as stated, refuted): a response without column headers whose rows
    are all empty has every row as long as the header list, yet
    [_fetch_google_analytics_data] returns no record for its row: the frame
    has one row and no column, and [to_dict('records')] of a frame without
    columns is empty. *)
Lemma ga_reshape_no_headers_counterexample :
  fst (_fetch_google_analytics_data (ga_env [[]] []) "app_1" init) = Ok [] /\
  ~ (forall env id st rows hs,
       ga_query_report env (ganalytics_api_key st) ga_request_body id =
         Ok (mkGAResponse (Some rows) (Some hs)) ->
       Forall (fun r => length r = length hs) rows ->
       fst (_fetch_google_analytics_data env id st) =
         Ok (map (fun r => dict_of_pairs (combine hs (map Some r))) rows)).
Proof.
  split; [vm_compute; reflexivity|].
  intro H.
  specialize (H (ga_env [[]] []) "app_1" init [[]] [] eq_refl).
  assert (F : Forall (fun r : list string => length r = length (@nil string)) [[]])
    by (repeat constructor).
  specialize (H F); vm_compute in H; discriminate H.
Qed.

(** C5 (amended): when every row of the analytics response has as many
    cells as there are column headers and there is at least one header,
    [_fetch_google_analytics_data] returns one record per row, in row order;
    each record maps every column header to the cell of a column of that
    name (the cell of its column when the headers are distinct) and has no
    other key.  With no header at all it returns no record, whatever the
    number of rows.  In particular headers ["date";"activeUsers"] with rows
    [["2023-01-01";"10"];["2023-01-02";"12"]] give
    [{date:"2023-01-01", activeUsers:"10"}, {date:"2023-01-02",
    activeUsers:"12"}]. *)
Theorem ga_reshape_rows_to_records env id st rows hs :
  ga_query_report env (ganalytics_api_key st) ga_request_body id =
    Ok (mkGAResponse (Some rows) (Some hs)) ->
  Forall (fun r => length r = length hs) rows ->
  fst (_fetch_google_analytics_data env id st) =
    Ok (match hs with
        | [] => []
        | _ :: _ => map (fun r => dict_of_pairs (combine hs (map Some r))) rows
        end) /\
  (forall r, In r rows -> forall h, In h hs ->
     exists i cell, nth_error hs i = Some h /\ nth_error r i = Some cell /\
       dict_lookup h (dict_of_pairs (combine hs (map Some r))) = Some (Some cell)) /\
  (forall r, In r rows -> forall k,
     In k (map fst (dict_of_pairs (combine hs (map Some r)))) -> In k hs) /\
  fst (_fetch_google_analytics_data
         (ga_env [["2023-01-01"; "10"]; ["2023-01-02"; "12"]]
                 ["date"; "activeUsers"]) "app_1" init) =
    Ok [[("date", Some "2023-01-01"); ("activeUsers", Some "10")];
        [("date", Some "2023-01-02"); ("activeUsers", Some "12")]].
Proof.
  intros Hq Hlen.
  split; [rewrite (ga_data_reshape _ _ _ _ _ Hq); apply dataframe_uniform; exact Hlen|].
  split.
  { intros r Hr h Hh; rewrite Forall_forall in Hlen.
    apply record_lookup; auto. }
  split; [intros r _ k; apply record_keys|].
  vm_compute; reflexivity.
Qed.

Lemma ga_reshape_rows_to_records_witness :
  fst (_fetch_google_analytics_data ok_env "app_1" init) =
    Ok [[("date", Some "2023-01-01"); ("activeUsers", Some "10")];
        [("date", Some "2023-01-02"); ("activeUsers", Some "12")]].
Proof.
  refine (proj1 (ga_reshape_rows_to_records ok_env "app_1" init
                   [["2023-01-01"; "10"]; ["2023-01-02"; "12"]]
                   ["date"; "activeUsers"] eq_refl _)).
  repeat constructor.
Defined.

(** ** C6 *)

(** C6 (as stated, refuted): a row shorter than the headers does not make
    the reshaping fail when another row is as wide as the headers: pandas
    pads the short row with the missing value, and
    [_fetch_google_analytics_data] returns the records. *)
Lemma ga_ragged_rows_counterexample :
  fst (_fetch_google_analytics_data
         (ga_env [["2023-01-01"; "10"]; ["2023-01-02"]] ["date"; "activeUsers"])
         "app_1" init) =
    Ok [[("date", Some "2023-01-01"); ("activeUsers", Some "10")];
        [("date", Some "2023-01-02"); ("activeUsers", None)]] /\
  ~ (forall env id st rows hs,
       ga_query_report env (ganalytics_api_key st) ga_request_body id =
         Ok (mkGAResponse (Some rows) (Some hs)) ->
       (exists r, In r rows /\ length r <> length hs) ->
       exists e, fst (_fetch_google_analytics_data env id st) = Err e).
Proof.
  split; [vm_compute; reflexivity|].
  intro H.
  destruct (H (ga_env [["2023-01-01"; "10"]; ["2023-01-02"]] ["date"; "activeUsers"])
              "app_1" init _ _ eq_refl) as [e He].
  - exists ["2023-01-02"]; simpl; split; auto.
  - vm_compute in He; discriminate He.
Qed.

(** C6 (amended): the reshaping raises (pandas' ValueError, logged and
    re-raised by [_fetch_google_analytics_data]) exactly when there is at
    least one row and the widest row's length differs from the number of
    headers, for instance two headers and rows all of length 1.  When the
    widest row matches the headers, no error is raised: shorter rows are
    padded with the missing value and one record per row is returned, none
    at all when there is no header. *)
Theorem ga_reshape_error_iff env id st rows hs :
  ga_query_report env (ganalytics_api_key st) ga_request_body id =
    Ok (mkGAResponse (Some rows) (Some hs)) ->
  ((exists m, fst (_fetch_google_analytics_data env id st) = Err (ValueError m)) <->
   rows <> [] /\ max_row_len rows <> length hs) /\
  (rows <> [] -> max_row_len rows = length hs ->
   fst (_fetch_google_analytics_data env id st) =
     Ok (match hs with
         | [] => []
         | _ :: _ =>
             map (fun r => dict_of_pairs (combine hs (pad_row (length hs) r))) rows
         end)).
Proof.
  intro Hq; rewrite (ga_data_reshape _ _ _ _ _ Hq).
  unfold dataframe_to_records, pd_DataFrame.
  destruct rows as [|r0 rows'].
  - split; [split; [intros [m Hm]; discriminate | intros [H _]; congruence]|].
    intro H; congruence.
  - cbv zeta.
    destruct (Nat.eqb (length hs) (max_row_len (r0 :: rows'))) eqn:E.
    + apply Nat.eqb_eq in E.
      split; [split; [intros [m Hm]; discriminate | intros [_ H]; congruence]|].
      intros _ _; rewrite <- E; unfold to_dict_records.
      destruct hs; [reflexivity|]; rewrite map_map; reflexivity.
    + apply Nat.eqb_neq in E.
      split; [split; [intros _; split; [discriminate | congruence] | intros _; eexists; reflexivity]|].
      intros _ H; congruence.
Qed.

Lemma ga_reshape_error_iff_witness :
  (exists m, fst (_fetch_google_analytics_data
                    (ga_env [["2023-01-02"]] ["date"; "activeUsers"]) "app_1" init) =
             Err (ValueError m)).
Proof.
  apply (proj1 (ga_reshape_error_iff
                  (ga_env [["2023-01-02"]] ["date"; "activeUsers"]) "app_1" init
                  [["2023-01-02"]] ["date"; "activeUsers"] eq_refl)).
  split; [discriminate | vm_compute; discriminate].
Defined.

(** * Further properties of the handler and the collector *)

(** ** process_stripe_webhook: missing keys and verifier errors *)

(** A payload dict without the key "payload", or with it but without
    "sig", makes [process_stripe_webhook] raise KeyError for the missing key
    before the verifier is called; the error is logged as unexpected. *)
Theorem webhook_missing_key env payload st k :
  (assoc "payload" payload = None /\ k = "payload") \/
  (assoc "payload" payload <> None /\ assoc "sig" payload = None /\ k = "sig") ->
  fst (process_stripe_webhook env payload st) = Err (KeyError k) /\
  log (snd (process_stripe_webhook env payload st)) =
    (log st ++ [LogError "Unexpected error processing Stripe webhook" (KeyError k)])%list /\
  sent (snd (process_stripe_webhook env payload st)) = sent st.
Proof.
  unfold process_stripe_webhook, getitem, try_except, bind, get_self, issue,
    lift, ret, raise, logger_error.
  intros [[H ->]|[H [H' ->]]].
  - rewrite H; simpl; repeat split.
  - destruct (assoc "payload" payload); [|congruence].
    rewrite H'; simpl; repeat split.
Qed.

Lemma webhook_missing_key_witness :
  fst (process_stripe_webhook ok_env [("payload", "{}")] init) = Err (KeyError "sig").
Proof.
  refine (proj1 (webhook_missing_key ok_env [("payload", "{}")] init "sig" _)).
  right; split; [discriminate | split; reflexivity].
Defined.

(** Whenever the verifier raises [e], [process_stripe_webhook] re-raises
    [e] itself after one log entry: "Stripe error" for a Stripe error,
    "Unexpected error processing Stripe webhook" otherwise.  The verifier is
    called once, with the body, the signature and the handler's payments
    key as secret. *)
Theorem webhook_verifier_error env payload st body sig e :
  assoc "payload" payload = Some body -> assoc "sig" payload = Some sig ->
  construct_event env body sig (stripe_key st) = Err e ->
  fst (process_stripe_webhook env payload st) = Err e /\
  log (snd (process_stripe_webhook env payload st)) =
    (log st ++ [LogError (if is_stripe_error e then "Stripe error"
                          else "Unexpected error processing Stripe webhook") e])%list /\
  sent (snd (process_stripe_webhook env payload st)) =
    (sent st ++ [ConstructEvent body sig (stripe_key st)])%list.
Proof.
  intros H1 H2 H3.
  unfold process_stripe_webhook, getitem, try_except, bind, get_self, issue,
    lift, ret, raise, logger_error.
  rewrite H1, H2; simpl; rewrite H3.
  destruct (is_stripe_error e); simpl; repeat split.
Qed.

Lemma webhook_verifier_error_witness :
  fst (process_stripe_webhook (verifier_error_env (ValueError "Expecting value"))
         (signed_payload "v1=STRIPE_API_KEY") init) =
    Err (ValueError "Expecting value").
Proof.
  exact (proj1 (webhook_verifier_error
                  (verifier_error_env (ValueError "Expecting value"))
                  (signed_payload "v1=STRIPE_API_KEY") init "{}" "v1=STRIPE_API_KEY"
                  (ValueError "Expecting value") eq_refl eq_refl eq_refl)).
Defined.

(** ** _fetch_google_analytics_data: outcome, log and request *)

(** A frame built from [rows] has one row per element of [rows]; it gives
    that many records unless it has no column. *)
Lemma pd_DataFrame_length rows hs df :
  pd_DataFrame rows hs = Ok df -> length df = length rows.
Proof.
  unfold pd_DataFrame; destruct rows as [|r rows]; [intros [= <-]; reflexivity|].
  cbv zeta; destruct (Nat.eqb _ _); [|discriminate].
  intros [= <-]; simpl; rewrite length_map; reflexivity.
Qed.

Lemma to_dict_records_length hs df :
  length (to_dict_records hs df) = match hs with [] => 0 | _ :: _ => length df end.
Proof. destruct hs; simpl; [reflexivity | apply length_map]. Qed.

(** After a query that answered with [rows] and [columnHeaders], a
    successful [_fetch_google_analytics_data] logs
    "Successfully processed n rows of GA data" with n the number of rows of
    the response, and returns that many records when there is at least one
    header, but no record at all when there is none: the logged count is
    not always the number of records returned. *)
Theorem ga_data_success_count env id st rows hs recs :
  ga_query_report env (ganalytics_api_key st) ga_request_body id =
    Ok (mkGAResponse (Some rows) (Some hs)) ->
  fst (_fetch_google_analytics_data env id st) = Ok recs ->
  length recs = match hs with [] => 0 | _ :: _ => length rows end /\
  log (snd (_fetch_google_analytics_data env id st)) =
    (log st ++ [LogInfo ("Successfully processed " ++ string_of_nat (length rows) ++
                         " rows of GA data")])%list.
Proof.
  intros Hq.
  unfold _fetch_google_analytics_data, get_google_analytics_data, try_except,
    bind, get_self, issue, lift, getitem_opt, ret, raise, logger_info,
    logger_error; simpl.
  rewrite Hq; simpl.
  destruct (pd_DataFrame rows hs) as [df|e] eqn:E; simpl; [|discriminate].
  intros [= <-].
  rewrite to_dict_records_length, (pd_DataFrame_length _ _ _ E).
  split; reflexivity.
Qed.

Lemma ga_data_success_count_witness :
  length (@nil Record_) = 0 /\
  log (snd (_fetch_google_analytics_data (ga_env [[]] []) "app_1" init)) =
    [LogInfo "Successfully processed 1 rows of GA data"].
Proof.
  exact (ga_data_success_count (ga_env [[]] []) "app_1" init [[]] [] []
           eq_refl eq_refl).
Defined.

(** ** fetch_saaS_usage: requests issued, logging, dependence on history *)

(** [fetch_saaS_usage] always calls the payouts endpoint first; it lists the
    S3 buckets only if the payouts call succeeded, and queries the analytics
    API (with the application id as property) only if both earlier calls
    succeeded.  All requests use the handler's own credentials. *)
Theorem fetch_usage_requests env id st :
  sent (snd (fetch_saaS_usage env id st)) =
  (sent st ++
   HttpGet stripe_payouts_endpoint
     [("Authorization", ("Bearer " ++ stripe_key st)%string)] ::
   match stripe_result env id st with
   | Err _ => []
   | Ok _ =>
       S3ListBuckets (aws_access_key_id st) (aws_secret_access_key st) ::
       match aws_result env st with
       | Err _ => []
       | Ok _ => [GAQueryReport (ganalytics_api_key st) ga_request_body id]
       end
   end)%list.
Proof. apply fetch_usage_sent. Qed.

(** A payouts request that fails in transport with a RequestException is
    logged twice, by [_fetch_stripe_data] and by [fetch_saaS_usage], and
    re-raised unchanged. *)
Theorem fetch_usage_stripe_failure_logged_twice env id st e :
  http_get env stripe_payouts_endpoint
    [("Authorization", ("Bearer " ++ stripe_key st)%string)] = Err e ->
  is_request_exception e = true ->
  fst (fetch_saaS_usage env id st) = Err e /\
  log (snd (fetch_saaS_usage env id st)) =
    (log st ++ [LogError "Stripe API request failed" e;
                LogError "Failed to fetch SaaS usage" e])%list.
Proof.
  intros H He.
  unfold fetch_saaS_usage, _fetch_stripe_data, try_except, bind, get_self,
    issue, lift, raise, logger_error; simpl.
  simpl in H; rewrite H; simpl; rewrite He; simpl.
  rewrite <- app_assoc; split; reflexivity.
Qed.

Lemma fetch_usage_stripe_failure_logged_twice_witness :
  log (snd (fetch_saaS_usage stripe_down_env "app_1" init)) =
    [LogError "Stripe API request failed" (ConnectionError "Max retries exceeded");
     LogError "Failed to fetch SaaS usage" (ConnectionError "Max retries exceeded")].
Proof.
  exact (proj2 (fetch_usage_stripe_failure_logged_twice stripe_down_env "app_1"
                  init (ConnectionError "Max retries exceeded") eq_refl eq_refl)).
Defined.

(** ** Shape of the records built by the reshaping *)

Lemma dict_lookup_app k (l1 l2 : Record_) :
  dict_lookup k (l1 ++ l2)%list =
  match dict_lookup k l1 with Some c => Some c | None => dict_lookup k l2 end.
Proof.
  induction l1 as [|[k0 v0] l1 IH]; simpl; [reflexivity|].
  destruct (String.eqb k k0); [reflexivity | exact IH].
Qed.

Lemma fold_lookup_rev k l : forall d,
  dict_lookup k (fold_left dict_step l d) =
  match dict_lookup k (rev l) with Some c => Some c | None => dict_lookup k d end.
Proof.
  induction l as [|[k0 v0] l IH]; intro d; simpl; [reflexivity|].
  rewrite IH, dict_lookup_app; unfold dict_step; simpl.
  rewrite dict_lookup_insert.
  destruct (dict_lookup k (rev l)); [reflexivity|].
  destruct (String.eqb k k0); reflexivity.
Qed.

Lemma keys_insert k v d :
  map fst (dict_insert k v d) =
  if existsb (String.eqb k) (map fst d) then map fst d else (map fst d ++ [k])%list.
Proof.
  induction d as [|[k0 v0] d IH]; simpl; [reflexivity|].
  destruct (String.eqb k k0) eqn:E; simpl.
  - apply String.eqb_eq in E; subst; reflexivity.
  - rewrite IH; destruct (existsb _ _); reflexivity.
Qed.

Lemma nodup_keys_fold l : forall d,
  NoDup (map fst d) -> NoDup (map fst (fold_left dict_step l d)).
Proof.
  induction l as [|[k0 v0] l IH]; intros d H; simpl; [exact H|].
  apply IH; unfold dict_step; simpl; rewrite keys_insert.
  destruct (existsb (String.eqb k0) (map fst d)) eqn:E; [exact H|].
  apply NoDup_app; [exact H | constructor; [intros []|constructor] |].
  intros x Hx [Heq|[]]; subst x.
  assert (existsb (String.eqb k0) (map fst d) = true)
    by (apply existsb_exists; exists k0; split; [exact Hx | apply String.eqb_refl]).
  congruence.
Qed.

Lemma keys_fold_fresh l : forall d,
  NoDup (map fst l) ->
  (forall x, In x (map fst l) -> ~ In x (map fst d)) ->
  map fst (fold_left dict_step l d) = (map fst d ++ map fst l)%list.
Proof.
  induction l as [|[k0 v0] l IH]; intros d Hn Hf; simpl.
  - rewrite app_nil_r; reflexivity.
  - inversion Hn as [|? ? Hk0 Hl]; subst.
    assert (E : existsb (String.eqb k0) (map fst d) = false).
    { destruct (existsb (String.eqb k0) (map fst d)) eqn:E; [|reflexivity].
      apply existsb_exists in E; destruct E as [x [Hx Hx']].
      apply String.eqb_eq in Hx'; subst x.
      exfalso; apply (Hf k0); [left; reflexivity | exact Hx]. }
    rewrite IH; unfold dict_step; simpl; rewrite ?keys_insert, ?E.
    + rewrite <- app_assoc; reflexivity.
    + exact Hl.
    + intros x Hx; rewrite in_app_iff; intros [H|[H|[]]].
      * apply (Hf x); [right; exact Hx | exact H].
      * subst; contradiction.
Qed.

Lemma lookup_nodup_in k c (l : Record_) :
  NoDup (map fst l) -> In (k, c) l -> dict_lookup k l = Some c.
Proof.
  induction l as [|[k0 v0] l IH]; simpl; [intros _ []|].
  intros Hn [H|H]; inversion Hn as [|? ? Hk0 Hl]; subst.
  - injection H as -> ->; rewrite String.eqb_refl; reflexivity.
  - destruct (String.eqb k k0) eqn:E.
    + apply String.eqb_eq in E; subst.
      exfalso; apply Hk0; apply (in_map fst _ _ H).
    + apply IH; assumption.
Qed.

Lemma in_combine_nth_error {A B} (xs : list A) (ys : list B) j x y :
  nth_error xs j = Some x -> nth_error ys j = Some y -> In (x, y) (combine xs ys).
Proof.
  revert ys j; induction xs as [|a xs IH]; intros [|b ys] [|j]; simpl;
    try discriminate; intros H1 H2.
  - left; congruence.
  - right; apply IH with j; assumption.
Qed.

Lemma max_row_len_ge_acc (rows : list (list string)) : forall acc,
  acc <= fold_left (fun k r => Nat.max k (length r)) rows acc.
Proof.
  induction rows as [|r rows IH]; intro acc; simpl; [lia|].
  specialize (IH (Nat.max acc (length r))); lia.
Qed.

Lemma max_row_len_ge (rows : list (list string)) r :
  In r rows -> length r <= max_row_len rows.
Proof.
  unfold max_row_len; generalize 0.
  induction rows as [|r0 rows IH]; simpl; intros acc H; [contradiction|].
  destruct H as [Heq|H]; [subst r0|apply IH; exact H].
  pose proof (max_row_len_ge_acc rows (Nat.max acc (length r))); lia.
Qed.

Lemma length_pad_row k r : length r <= k -> length (pad_row k r) = k.
Proof.
  intro H; unfold pad_row; rewrite length_app, length_map, repeat_length; lia.
Qed.

Lemma nth_error_pad_row k r j :
  length r <= k -> j < k -> nth_error (pad_row k r) j = Some (nth_error r j).
Proof.
  intros Hr Hj; unfold pad_row.
  destruct (Nat.lt_ge_cases j (length r)) as [H|H].
  - rewrite nth_error_app1 by (rewrite length_map; exact H).
    rewrite nth_error_map.
    destruct (nth_error r j) eqn:E; [reflexivity|].
    apply nth_error_None in E; lia.
  - rewrite nth_error_app2 by (rewrite length_map; exact H).
    rewrite length_map, nth_error_repeat by lia.
    rewrite (proj2 (nth_error_None r j) H); reflexivity.
Qed.

(** A frame is the rows padded to the header length, which no row
    exceeds. *)
Lemma pd_DataFrame_ok rows hs df :
  pd_DataFrame rows hs = Ok df ->
  df = map (pad_row (length hs)) rows /\ (forall r, In r rows -> length r <= length hs).
Proof.
  unfold pd_DataFrame; destruct rows as [|r0 rows'].
  - intros [= <-]; split; [reflexivity | intros r []].
  - cbv zeta.
    destruct (Nat.eqb (length hs) (max_row_len (r0 :: rows'))) eqn:E;
      [|discriminate].
    apply Nat.eqb_eq in E; intro H; injection H as <-.
    rewrite E; split; [reflexivity|].
    intros r Hr; apply max_row_len_ge; exact Hr.
Qed.

Lemma to_dict_records_nth hs df i rec :
  nth_error (to_dict_records hs df) i = Some rec ->
  exists cells, nth_error df i = Some cells /\ rec = dict_of_pairs (combine hs cells).
Proof.
  unfold to_dict_records; destruct hs as [|h hs']; [destruct i; discriminate|].
  rewrite nth_error_map.
  destruct (nth_error df i) as [cells|]; simpl; [|discriminate].
  intros [= <-]; exists cells; split; reflexivity.
Qed.

(** Each record of a successful [dataframe_to_records] is built from the
    row of the same index, padded to the header length. *)
Lemma dataframe_row rows hs recs i rec :
  dataframe_to_records rows hs = Ok recs -> nth_error recs i = Some rec ->
  exists r, nth_error rows i = Some r /\ length r <= length hs /\
    rec = dict_of_pairs (combine hs (pad_row (length hs) r)).
Proof.
  unfold dataframe_to_records.
  destruct (pd_DataFrame rows hs) as [df|e] eqn:Ed; [|discriminate].
  intros H Hi; injection H as <-.
  destruct (pd_DataFrame_ok _ _ _ Ed) as [-> Hle].
  destruct (to_dict_records_nth _ _ _ _ Hi) as [cells [Hc ->]].
  rewrite nth_error_map in Hc.
  destruct (nth_error rows i) as [r|] eqn:Hr; [|discriminate].
  injection Hc as <-.
  exists r; split; [reflexivity|]; split; [|reflexivity].
  apply Hle; eapply nth_error_In; exact Hr.
Qed.

(** Each record returned by [_fetch_google_analytics_data] has distinct
    keys, and a header occurring several times takes the cell of its last
    column: the record at index [i] comes from the row [r] at index [i],
    and looking a name up in it gives the last (header, cell) pair of that
    name in [zip(headers, row)], the row padded with missing values to the
    header length. *)
Theorem ga_records_last_duplicate_wins env id st rows hs recs i rec :
  ga_query_report env (ganalytics_api_key st) ga_request_body id =
    Ok (mkGAResponse (Some rows) (Some hs)) ->
  fst (_fetch_google_analytics_data env id st) = Ok recs ->
  nth_error recs i = Some rec ->
  exists r, nth_error rows i = Some r /\ NoDup (map fst rec) /\
    forall h, dict_lookup h rec =
              dict_lookup h (rev (combine hs (pad_row (length hs) r))).
Proof.
  intros Hq Hf Hi; rewrite (ga_data_reshape _ _ _ _ _ Hq) in Hf.
  destruct (dataframe_row _ _ _ _ _ Hf Hi) as [r [Hr [_ ->]]].
  exists r; split; [exact Hr|]; split.
  - apply nodup_keys_fold; constructor.
  - intro h; unfold dict_of_pairs; fold dict_step.
    rewrite fold_lookup_rev; simpl.
    destruct (dict_lookup h (rev _)); reflexivity.
Qed.

Lemma ga_records_last_duplicate_wins_witness :
  exists r,
    nth_error [["1"; "2"]] 0 = Some r /\ NoDup (map fst [("a", Some "2")]) /\
    forall h, dict_lookup h [("a", Some "2")] =
              dict_lookup h (rev (combine ["a"; "a"] (pad_row 2 r))).
Proof.
  apply (ga_records_last_duplicate_wins (ga_env [["1"; "2"]] ["a"; "a"]) "app_1"
           init [["1"; "2"]] ["a"; "a"] [[("a", Some "2")]] 0); vm_compute; reflexivity.
Defined.

(** With distinct headers, the record at index [i] comes from the row [r]
    at index [i], has exactly the headers as keys, in header order, and
    maps the [j]-th header to the [j]-th cell of [r], or to the missing
    value when [r] is shorter than the headers. *)
Theorem ga_records_distinct_headers env id st rows hs recs i rec :
  ga_query_report env (ganalytics_api_key st) ga_request_body id =
    Ok (mkGAResponse (Some rows) (Some hs)) ->
  fst (_fetch_google_analytics_data env id st) = Ok recs ->
  NoDup hs -> nth_error recs i = Some rec ->
  exists r, nth_error rows i = Some r /\ map fst rec = hs /\
    forall j h, nth_error hs j = Some h -> dict_lookup h rec = Some (nth_error r j).
Proof.
  intros Hq Hf Hnd Hi; rewrite (ga_data_reshape _ _ _ _ _ Hq) in Hf.
  destruct (dataframe_row _ _ _ _ _ Hf Hi) as [r [Hr [Hlen ->]]].
  assert (Hpad : length (pad_row (length hs) r) = length hs)
    by (apply length_pad_row; exact Hlen).
  assert (Hkeys : map fst (combine hs (pad_row (length hs) r)) = hs)
    by (apply map_fst_combine; symmetry; exact Hpad).
  exists r; split; [exact Hr|]; split.
  - unfold dict_of_pairs; fold dict_step.
    rewrite keys_fold_fresh; rewrite ?Hkeys; [reflexivity | exact Hnd | intros x _ []].
  - intros j h Hj.
    assert (Hjlt : j < length hs) by (apply nth_error_Some; congruence).
    unfold dict_of_pairs; fold dict_step; rewrite fold_lookup_rev.
    rewrite (lookup_nodup_in h (nth_error r j)).
    + reflexivity.
    + rewrite map_rev, Hkeys; apply NoDup_rev; exact Hnd.
    + apply in_rev. rewrite rev_involutive.
      apply (in_combine_nth_error _ _ j); [exact Hj|].
      apply nth_error_pad_row; assumption.
Qed.

Lemma ga_records_distinct_headers_witness :
  exists r,
    nth_error [["2023-01-01"; "10"]; ["2023-01-02"]] 1 = Some r /\
    map fst [("date", Some "2023-01-02"); ("activeUsers", None)] =
      ["date"; "activeUsers"] /\
    forall j h, nth_error ["date"; "activeUsers"] j = Some h ->
                dict_lookup h [("date", Some "2023-01-02"); ("activeUsers", None)] =
                Some (nth_error r j).
Proof.
  apply (ga_records_distinct_headers
           (ga_env [["2023-01-01"; "10"]; ["2023-01-02"]] ["date"; "activeUsers"])
           "app_1" init [["2023-01-01"; "10"]; ["2023-01-02"]] ["date"; "activeUsers"]
           [[("date", Some "2023-01-01"); ("activeUsers", Some "10")];
            [("date", Some "2023-01-02"); ("activeUsers", None)]] 1);
    try (vm_compute; reflexivity).
  repeat constructor; simpl; intuition discriminate.
Defined.
